(** * GeoStyler demo: the split-pane resizer and the style change handler

    A shallow embedding of the two pieces of original behaviour of
    [App.tsx]: the [useEffect] that attaches the drag handlers of the
    [.resizer] divider, and [onCodeEditorChange].

    The DOM is modelled as far as the handlers touch it: the divider node with
    its two element siblings and its listener list, the listener list of
    [document], [window.innerWidth], and the two closure variables [startX]
    and [startWidth] of the effect.  Handlers run in a state monad with
    exceptions; an exception leaves the mutations made before it in place. *)

From Stdlib Require Import ZArith List String Bool.
From Stdlib Require Import DecimalString.
Import ListNotations.
Local Open Scope string_scope.

(** ** JavaScript numbers

    [clientX], [getBoundingClientRect().width] and [window.innerWidth] are
    JavaScript numbers.  The handlers only add, subtract and print them, so
    the development is generic in the carrier: every theorem holds for any
    interpretation of [+], [-], the literals and the template-literal
    conversion, IEEE doubles included. *)

Class JsNumber (num : Type) := {
  num_add : num -> num -> num;
  num_sub : num -> num -> num;
  num_lit : Z -> num;
  num_toString : num -> string
}.

Declare Scope js_scope.
Delimit Scope js_scope with js.
Infix "+" := num_add : js_scope.
Infix "-" := num_sub : js_scope.

(** Integer-valued numbers.  Doubles add and subtract integers exactly as
    long as operands and result stay within 2^53 in magnitude, and
    [Number.prototype.toString] prints an integer below 10^21 with all its
    decimal digits, with a leading minus sign when negative.  [Z] stands for
    the numbers of the code in that range only. *)
Definition Z_toString (z : Z) : string := NilZero.string_of_int (Z.to_int z).

(** Pixel values small enough that every sum and difference the handlers
    form of them stays within 2^53: integers of magnitude at most 2^50. *)
Definition pixel (z : Z) : bool := (Z.abs z <=? 2 ^ 50)%Z.

#[export] Instance Z_JsNumber : JsNumber Z := {
  num_add := Z.add;
  num_sub := Z.sub;
  num_lit := fun z => z;
  num_toString := Z_toString
}.

(** ** Events and listeners *)

Inductive EventType := mousedown | mousemove | mouseup.

(** The three closures created by one run of the effect. *)
Inductive Callback := OnMouseDown | OnMouseMove | OnMouseUp.

Definition EventType_eqb (a b : EventType) : bool :=
  match a, b with
  | mousedown, mousedown | mousemove, mousemove | mouseup, mouseup => true
  | _, _ => false
  end.

Definition Callback_eqb (a b : Callback) : bool :=
  match a, b with
  | OnMouseDown, OnMouseDown | OnMouseMove, OnMouseMove
  | OnMouseUp, OnMouseUp => true
  | _, _ => false
  end.

(** An entry of an event target's listener list (capture is always false). *)
Definition Listener : Type := EventType * Callback.

Definition Listener_eqb (a b : Listener) : bool :=
  EventType_eqb (fst a) (fst b) && Callback_eqb (snd a) (snd b).

(** [EventTarget.addEventListener]: appended unless an entry with the same
    type and callback is already in the list. *)
Definition addEventListener (ls : list Listener) (ty : EventType)
    (cb : Callback) : list Listener :=
  if existsb (Listener_eqb (ty, cb)) ls then ls else ls ++ [(ty, cb)].

(** [EventTarget.removeEventListener]: the matching entry is removed. *)
Fixpoint removeEventListener (ls : list Listener) (ty : EventType)
    (cb : Callback) : list Listener :=
  match ls with
  | [] => []
  | l :: ls' =>
      if Listener_eqb (ty, cb) l then ls'
      else l :: removeEventListener ls' ty cb
  end.

Definition registered (ls : list Listener) (ty : EventType) (cb : Callback)
    : bool :=
  existsb (Listener_eqb (ty, cb)) ls.

Inductive Exn := TypeError.

(** How the evaluation of a function body ends. *)
Inductive Completion (A : Type) :=
| Normal (a : A)
| Throw (e : Exn).
Arguments Normal {A} a.
Arguments Throw {A} e.

Section Resizer.

Context {num : Type} `{JsNumber num}.
Local Open Scope js_scope.

(** ** The DOM the effect touches *)

(** A panel: its [style] attribute and the width of its bounding rectangle. *)
Record Element := {
  style : option string;
  boundingWidth : num
}.

(** The divider, [<div ref={resizerRef} className="resizer">]. *)
Record ResizerNode := {
  previousElementSibling : option Element;
  nextElementSibling : option Element;
  listeners : list Listener
}.

Record World := {
  resizer : option ResizerNode;      (* const resizer = resizerRef.current *)
  startX : num;                      (* let startX *)
  startWidth : num;                  (* let startWidth *)
  document_listeners : list Listener;
  innerWidth : num;                  (* window.innerWidth *)
  uncaught : list Exn                (* exceptions reported by the event loop *)
}.

Definition setAttribute_style (v : string) (e : Element) : Element :=
  {| style := Some v; boundingWidth := boundingWidth e |}.

Definition with_resizer (r : option ResizerNode) (w : World) : World :=
  {| resizer := r; startX := startX w; startWidth := startWidth w;
     document_listeners := document_listeners w;
     innerWidth := innerWidth w; uncaught := uncaught w |}.

Definition with_startX (x : num) (w : World) : World :=
  {| resizer := resizer w; startX := x; startWidth := startWidth w;
     document_listeners := document_listeners w;
     innerWidth := innerWidth w; uncaught := uncaught w |}.

Definition with_startWidth (x : num) (w : World) : World :=
  {| resizer := resizer w; startX := startX w; startWidth := x;
     document_listeners := document_listeners w;
     innerWidth := innerWidth w; uncaught := uncaught w |}.

Definition with_document_listeners (ls : list Listener) (w : World) : World :=
  {| resizer := resizer w; startX := startX w; startWidth := startWidth w;
     document_listeners := ls;
     innerWidth := innerWidth w; uncaught := uncaught w |}.

Definition with_innerWidth (v : num) (w : World) : World :=
  {| resizer := resizer w; startX := startX w; startWidth := startWidth w;
     document_listeners := document_listeners w;
     innerWidth := v; uncaught := uncaught w |}.

Definition with_uncaught (es : list Exn) (w : World) : World :=
  {| resizer := resizer w; startX := startX w; startWidth := startWidth w;
     document_listeners := document_listeners w;
     innerWidth := innerWidth w; uncaught := es |}.

Definition with_previous (p : option Element) (r : ResizerNode) : ResizerNode :=
  {| previousElementSibling := p;
     nextElementSibling := nextElementSibling r;
     listeners := listeners r |}.

Definition with_next (n : option Element) (r : ResizerNode) : ResizerNode :=
  {| previousElementSibling := previousElementSibling r;
     nextElementSibling := n;
     listeners := listeners r |}.

Definition with_listeners (ls : list Listener) (r : ResizerNode) : ResizerNode :=
  {| previousElementSibling := previousElementSibling r;
     nextElementSibling := nextElementSibling r;
     listeners := ls |}.

(** ** Handlers: state with exceptions *)

Definition M (A : Type) : Type := World -> Completion A * World.

Definition ret {A} (a : A) : M A := fun w => (Normal a, w).

Definition bind {A B} (m : M A) (k : A -> M B) : M B :=
  fun w =>
    match m w with
    | (Normal a, w') => k a w'
    | (Throw e, w') => (Throw e, w')
    end.

Definition throw {A} (e : Exn) : M A := fun w => (Throw e, w).
Definition gets {A} (f : World -> A) : M A := fun w => (Normal (f w), w).
Definition modify (f : World -> World) : M unit := fun w => (Normal tt, f w).

(** Property access on a possibly-null reference: [x!.p] is [x.p] at run
    time, and throws a [TypeError] when [x] is null. *)
Definition deref {A} (o : option A) : M A :=
  match o with
  | Some a => ret a
  | None => throw TypeError
  end.

Notation "x <- m ;; k" := (bind m (fun x => k))
  (at level 61, m at next level, right associativity).
Notation "m ;;; k" := (bind m (fun _ => k))
  (at level 61, right associativity).

(** Writes through [resizer.previousElementSibling] and
    [resizer.nextElementSibling]: the elements are shared DOM objects, so a
    write is a write to the node held by the world. *)
Definition update_previous (f : Element -> Element) (w : World) : World :=
  with_resizer
    (option_map
       (fun r => with_previous (option_map f (previousElementSibling r)) r)
       (resizer w)) w.

Definition update_next (f : Element -> Element) (w : World) : World :=
  with_resizer
    (option_map
       (fun r => with_next (option_map f (nextElementSibling r)) r)
       (resizer w)) w.

Definition update_listeners (f : list Listener -> list Listener) (w : World)
    : World :=
  with_resizer
    (option_map (fun r => with_listeners (f (listeners r)) r) (resizer w)) w.

Definition update_document_listeners (f : list Listener -> list Listener)
    (w : World) : World :=
  with_document_listeners (f (document_listeners w)) w.

Inductive Target := Divider | Elsewhere.

Record MouseEvent := {
  type : EventType;
  target : Target;
  clientX : num
}.

(** [const onMouseDown = (e: MouseEvent) => { ... }] *)
Definition onMouseDown (e : MouseEvent) : M unit :=
  modify (with_startX (clientX e)) ;;;
  r <- (o <- gets resizer ;; deref o) ;;
  p <- deref (previousElementSibling r) ;;
  modify (with_startWidth (boundingWidth p)) ;;;
  modify (update_document_listeners
            (fun ls => addEventListener ls mousemove OnMouseMove)) ;;;
  modify (update_document_listeners
            (fun ls => addEventListener ls mouseup OnMouseUp)).

(** [const onMouseMove = (e: MouseEvent) => { ... }] *)
Definition onMouseMove (e : MouseEvent) : M unit :=
  sw <- gets startWidth ;;
  sx <- gets startX ;;
  let newWidth := sw + (clientX e - sx) in
  r <- (o <- gets resizer ;; deref o) ;;
  _ <- deref (previousElementSibling r) ;;
  modify (update_previous
            (setAttribute_style
               ("width: " ++ num_toString newWidth ++ "px"))) ;;;
  r' <- (o <- gets resizer ;; deref o) ;;
  _ <- deref (nextElementSibling r') ;;
  iw <- gets innerWidth ;;
  modify (update_next
            (setAttribute_style
               ("flex: 1 1 "
                  ++ num_toString (iw - newWidth - num_lit 10) ++ "px"))).

(** [const onMouseUp = () => { ... }] *)
Definition onMouseUp : M unit :=
  modify (update_document_listeners
            (fun ls => removeEventListener ls mousemove OnMouseMove)) ;;;
  modify (update_document_listeners
            (fun ls => removeEventListener ls mouseup OnMouseUp)).

(** The function the effect returns. *)
Definition cleanup : M unit :=
  _ <- (o <- gets resizer ;; deref o) ;;
  modify (update_listeners
            (fun ls => removeEventListener ls mousedown OnMouseDown)).

(** The body of the second [useEffect]; [resizer w] is what
    [resizerRef.current] holds when the effect runs.  It returns the cleanup
    function. *)
Definition useEffect_resizer : M (M unit) :=
  modify (with_startX (num_lit 0)) ;;;
  modify (with_startWidth (num_lit 0)) ;;;
  _ <- (o <- gets resizer ;; deref o) ;;
  modify (update_listeners
            (fun ls => addEventListener ls mousedown OnMouseDown)) ;;;
  ret cleanup.

(** ** Event dispatch *)

Definition invoke (cb : Callback) (e : MouseEvent) : M unit :=
  match cb with
  | OnMouseDown => onMouseDown e
  | OnMouseMove => onMouseMove e
  | OnMouseUp => onMouseUp
  end.

(** An exception that escapes a listener or a cleanup is reported and does
    not propagate. *)
Definition report (m : M unit) (w : World) : World :=
  match m w with
  | (Normal _, w') => w'
  | (Throw e, w') => with_uncaught (uncaught w' ++ [e]) w'
  end.

Inductive EventTargetRef := TheResizer | TheDocument.

Definition listeners_of (t : EventTargetRef) (w : World) : list Listener :=
  match t with
  | TheDocument => document_listeners w
  | TheResizer =>
      match resizer w with
      | Some r => listeners r
      | None => []
      end
  end.

(** Inner invoke: the listeners are taken from a snapshot of the target's
    list; one whose type differs or that was removed meanwhile is skipped. *)
Fixpoint invoke_listeners (t : EventTargetRef) (snapshot : list Listener)
    (e : MouseEvent) (w : World) : World :=
  match snapshot with
  | [] => w
  | (ty, cb) :: rest =>
      let w' :=
        if EventType_eqb ty (type e) && registered (listeners_of t w) ty cb
        then report (invoke cb e) w
        else w in
      invoke_listeners t rest e w'
  end.

(** A mouse event bubbles from its target to [document]. *)
Definition dispatchEvent (e : MouseEvent) (w : World) : World :=
  let w1 :=
    match target e with
    | Divider => invoke_listeners TheResizer (listeners_of TheResizer w) e w
    | Elsewhere => w
    end in
  invoke_listeners TheDocument (listeners_of TheDocument w1) e w1.

(** ** What happens to a mounted controller *)

Inductive Input :=
| Pointer (e : MouseEvent)   (* a mouse event reaches the page *)
| Layout (width : num)       (* the browser lays the left panel out anew *)
| Resize (width : num)       (* the viewport is resized *)
| Detach.                    (* React runs the effect's cleanup *)

Definition step (i : Input) (w : World) : World :=
  match i with
  | Pointer e => dispatchEvent e w
  | Layout wd =>
      update_previous
        (fun p => {| style := style p; boundingWidth := wd |}) w
  | Resize v => with_innerWidth v w
  | Detach => report cleanup w
  end.

Definition run (inputs : list Input) (w : World) : World :=
  fold_left (fun w i => step i w) inputs w.

Definition pointerDown (x : num) : Input :=
  Pointer {| type := mousedown; target := Divider; clientX := x |}.
Definition pointerMove (t : Target) (x : num) : Input :=
  Pointer {| type := mousemove; target := t; clientX := x |}.
Definition pointerUp (t : Target) (x : num) : Input :=
  Pointer {| type := mouseup; target := t; clientX := x |}.

(** ** Observations *)

Definition leftPanel (w : World) : option Element :=
  match resizer w with
  | Some r => previousElementSibling r
  | None => None
  end.

Definition rightPanel (w : World) : option Element :=
  match resizer w with
  | Some r => nextElementSibling r
  | None => None
  end.

Definition leftStyle (w : World) : option string :=
  match leftPanel w with Some p => style p | None => None end.

Definition rightStyle (w : World) : option string :=
  match rightPanel w with Some p => style p | None => None end.

(** The two states of the controller, read off the listeners that are
    installed on [document]. *)
Definition session_listeners : list Listener :=
  [(mousemove, OnMouseMove); (mouseup, OnMouseUp)].

Definition Idle (w : World) : Prop := document_listeners w = [].
Definition Dragging (w : World) : Prop :=
  document_listeners w = session_listeners.

Definition Attached (w : World) : Prop :=
  listeners_of TheResizer w = [(mousedown, OnMouseDown)].
Definition Detached (w : World) : Prop :=
  listeners_of TheResizer w = [].

Definition panelsPresent (w : World) : Prop :=
  leftPanel w <> None /\ rightPanel w <> None.

(** What the listener lists of a mounted controller can look like. *)
Definition wellFormed (w : World) : Prop :=
  (Idle w \/ Dragging w) /\ (Attached w \/ Detached w).

(** ** Classes of inputs *)

Definition isDividerDown (i : Input) : bool :=
  match i with
  | Pointer e =>
      match type e, target e with
      | mousedown, Divider => true
      | _, _ => false
      end
  | _ => false
  end.

Definition isPointerMove (i : Input) : bool :=
  match i with
  | Pointer e => EventType_eqb (type e) mousemove
  | _ => false
  end.

Definition isPointerUp (i : Input) : bool :=
  match i with
  | Pointer e => EventType_eqb (type e) mouseup
  | _ => false
  end.

(** Inputs that neither start nor end a drag session. *)
Definition keepsSession (i : Input) : bool :=
  negb (isDividerDown i) && negb (isPointerUp i).

(** A drag session that started at pointer position [x0] with the left panel
    [width0] wide. *)
Definition inSession (x0 width0 : num) (w : World) : Prop :=
  wellFormed w /\ Dragging w /\ leftPanel w <> None
  /\ startX w = x0 /\ startWidth w = width0.

End Resizer.

(** ** The style change handler *)

Module StyleEditor.

(** The part of [geostyler-style]'s [Style] that the initial state uses. *)
Record Symbolizer := {
  kind : string;
  color : string;
  width : Z
}.

Record Rule := {
  rule_name : string;
  symbolizers : list Symbolizer
}.

Record GsStyle := {
  name : string;
  rules : list Rule
}.

(** What the widget can hand to [onStyleChange] at run time. *)
Inductive JsValue :=
| undefined
| null
| object (s : GsStyle).

(** [ToBoolean]: an object is truthy, [undefined] and [null] are falsy. *)
Definition ToBoolean (v : JsValue) : bool :=
  match v with
  | undefined | null => false
  | object _ => true
  end.

Record AppState := {
  style : JsValue;           (* const [style, setStyle] = useState(...) *)
  console : list JsValue     (* what console.log has printed *)
}.

Definition initialState : AppState := {|
  style :=
    object
      {| name := "GeoStyler Demo";
         rules :=
           [ {| rule_name := "Rule 1";
                symbolizers :=
                  [ {| kind := "Line"; color := "#ff0000"; width := 5 |} ]
             |} ]
      |};
  console := []
|}.

Definition console_log (v : JsValue) (st : AppState) : AppState :=
  {| style := style st; console := console st ++ [v] |}.

Definition setStyle (v : JsValue) (st : AppState) : AppState :=
  {| style := v; console := console st |}.

(** [const onCodeEditorChange = (newStyle: GsStyle) => { ... }] *)
Definition onCodeEditorChange (newStyle : JsValue) (st : AppState)
    : AppState :=
  let st := console_log newStyle st in
  if negb (ToBoolean newStyle) then st
  else setStyle newStyle st.

End StyleEditor.

(** ** Concrete pages *)

Module Scenario.

Local Open Scope Z_scope.

Definition panel (w : Z) : Element := {| style := None; boundingWidth := w |}.

(** The page before the effect runs: the divider at x = 300 between a left
    panel 300 px wide and the right panel, in a viewport 1200 px wide. *)
Definition page : World := {|
  resizer :=
    Some {| previousElementSibling := Some (panel 300);
            nextElementSibling := Some (panel 890);
            listeners := [] |};
  startX := 0;
  startWidth := 0;
  document_listeners := [];
  innerWidth := 1200;
  uncaught := []
|}.

(** The same page when the ref holds no element. *)
Definition pageWithoutDivider : World := with_resizer None page.

Definition mounted : World := snd (useEffect_resizer page).

(** Pointer-down at 300, then moves to 350 and to 280. *)
Definition dragging : World :=
  run [pointerDown 300; pointerMove Elsewhere 350] mounted.

Definition dropped : World :=
  run [pointerMove Elsewhere 280; pointerUp Elsewhere 280] dragging.

End Scenario.

(** ** Further inputs and pages *)

Section ResizerInputs.

Context {num : Type} `{JsNumber num}.

(** A pointer-down that does not hit the divider. *)
Definition pointerDownOutside (x : num) : Input :=
  Pointer {| type := mousedown; target := Elsewhere; clientX := x |}.

End ResizerInputs.

Module EdgePages.

Local Open Scope Z_scope.

(** A divider that is the last child of its parent. *)
Definition pageWithoutRightPanel : World :=
  with_resizer
    (Some {| previousElementSibling := Some (Scenario.panel 300);
             nextElementSibling := None;
             listeners := [] |}) Scenario.page.

Definition draggingWithoutRightPanel : World :=
  run [pointerDown 300] (snd (useEffect_resizer pageWithoutRightPanel)).

End EdgePages.

(** ** Sequences of style changes *)

Module StyleHistory.
Import StyleEditor.

(** The widget calls [onStyleChange] once per edit. *)
Definition onCodeEditorChanges (vs : list JsValue) (st : AppState)
    : AppState :=
  fold_left (fun st v => onCodeEditorChange v st) vs st.

End StyleHistory.

(** The earlier [src/App.tsx] hands the state setter to the widget:
    [onStyleChange={setStyle}]. *)
Module LegacyApp.
Import StyleEditor.

Definition onStyleChange (newStyle : JsValue) (st : AppState) : AppState :=
  setStyle newStyle st.

Definition onStyleChanges (vs : list JsValue) (st : AppState) : AppState :=
  fold_left (fun st v => onStyleChange v st) vs st.

End LegacyApp.

(** ** The data loader's callbacks *)

Module DataLoader.

Record AppLocale := {
  codeEditor : string;
  cardLayout : string;
  examples : string;
  graphicalEditor : string;
  language : string;
  legend : string;
  splitView : string;
  previewMap : string;
  loadedSuccess : string;
  previewMapDataProjection : string
}.

Definition appLocale : AppLocale := {|
  codeEditor := "Code Editor";
  cardLayout := "CardLayout (Beta)";
  examples := "Examples";
  graphicalEditor := "Graphical Editor";
  language := "Language";
  legend := "Legend";
  splitView := "Split View";
  previewMap := "Preview Map";
  loadedSuccess := "Loaded successfully!";
  previewMapDataProjection :=
    "The sample data is expected in the projection EPSG:4326."
|}.

Section Loader.

(** [geostyler-data]'s [Data]; the callbacks only pass it on. *)
Variable GsData : Type.

Record LoaderState := {
  data : option GsData;          (* const [data, setData] = useState<GsData>() *)
  notifications : list string;   (* messages shown by notification.success *)
  console : list GsData          (* what console.log has printed *)
}.

Definition initialLoaderState : LoaderState :=
  {| data := None; notifications := []; console := [] |}.

(** [onDataRead={(newData: GsData) => { ... }}] *)
Definition onDataRead (newData : GsData) (st : LoaderState) : LoaderState :=
  let st :=
    {| data := data st;
       notifications := notifications st ++ [loadedSuccess appLocale];
       console := console st |} in
  let st :=
    {| data := Some newData;
       notifications := notifications st;
       console := console st |} in
  {| data := data st;
     notifications := notifications st;
     console := console st ++ [newData] |}.

(** [onRemove: () => { setData(undefined); }] *)
Definition onRemove (st : LoaderState) : LoaderState :=
  {| data := None;
     notifications := notifications st;
     console := console st |}.

Inductive LoaderEvent :=
| DataRead (newData : GsData)
| Remove.

Definition handle (ev : LoaderEvent) (st : LoaderState) : LoaderState :=
  match ev with
  | DataRead d => onDataRead d st
  | Remove => onRemove st
  end.

Definition handleAll (evs : list LoaderEvent) (st : LoaderState)
    : LoaderState :=
  fold_left (fun st ev => handle ev st) evs st.

(** The datasets read, in order. *)
Definition reads (evs : list LoaderEvent) : list GsData :=
  flat_map (fun ev => match ev with DataRead d => [d] | Remove => [] end) evs.

(** What the last event of a sequence leaves in [data]. *)
Definition lastData (evs : list LoaderEvent) (d0 : option GsData)
    : option GsData :=
  match last (map Some evs) None with
  | Some (DataRead d) => Some d
  | Some Remove => None
  | None => d0
  end.

End Loader.

End DataLoader.

(** ** Proof automation *)

(** Case analysis on everything the handlers branch on: whether the divider
    and its siblings exist, and which listeners are installed. *)
Ltac break_world w :=
  let p := fresh "p" in
  let n := fresh "n" in
  destruct w as [[[[p |] [n |] ?] |] ? ? ? ? ?];
  unfold inSession, wellFormed, Idle, Dragging, Attached, Detached,
    panelsPresent, session_listeners, listeners_of, leftPanel, rightPanel in *;
  cbn [resizer document_listeners listeners previousElementSibling
       nextElementSibling startX startWidth] in *;
  repeat match goal with
         | H : _ /\ _ |- _ => destruct H
         | H : _ \/ _ |- _ => destruct H
         end;
  subst; try discriminate; try congruence;
  repeat match goal with
         | H : Some _ = Some _ |- _ => injection H as H; subst
         end.

Ltac break_input i :=
  let ty := fresh "ty" in
  let tg := fresh "tg" in
  destruct i as [[ty tg ?] | | |]; [destruct ty, tg | | |];
  try discriminate.

(** * Properties *)

(** ** Listener lists *)

Lemma Listener_eqb_eq (a b : Listener) : Listener_eqb a b = true <-> a = b.
Proof.
  destruct a as [[] []], b as [[] []]; cbn; split;
    intros E; try reflexivity; discriminate E.
Qed.

Lemma Listener_eqb_refl (a : Listener) : Listener_eqb a a = true.
Proof. apply Listener_eqb_eq; reflexivity. Qed.

Lemma registered_In ls ty cb : registered ls ty cb = true <-> In (ty, cb) ls.
Proof.
  unfold registered. rewrite existsb_exists. split.
  - intros (l & Hin & E). apply Listener_eqb_eq in E. now subst.
  - intros Hin. exists (ty, cb). split; [assumption | apply Listener_eqb_refl].
Qed.

Lemma registered_addEventListener ls ty cb :
  registered (addEventListener ls ty cb) ty cb = true.
Proof.
  unfold addEventListener.
  destruct (existsb (Listener_eqb (ty, cb)) ls) eqn:E; [exact E |].
  apply registered_In, in_or_app. right. now left.
Qed.

(** Registering a listener that is already there changes nothing. *)
Lemma addEventListener_registered ls ty cb :
  registered ls ty cb = true -> addEventListener ls ty cb = ls.
Proof. unfold addEventListener, registered. now intros ->. Qed.

Lemma addEventListener_idempotent ls ty cb :
  addEventListener (addEventListener ls ty cb) ty cb
  = addEventListener ls ty cb.
Proof. apply addEventListener_registered, registered_addEventListener. Qed.

Lemma addEventListener_NoDup ls ty cb :
  NoDup ls -> NoDup (addEventListener ls ty cb).
Proof.
  intros Hnd. unfold addEventListener.
  destruct (existsb (Listener_eqb (ty, cb)) ls) eqn:E; [assumption |].
  apply NoDup_app; [assumption | repeat constructor; intros [] | ].
  intros l Hin [<- | []].
  apply registered_In in Hin. unfold registered in Hin. congruence.
Qed.

Lemma removeEventListener_unregistered ls ty cb :
  registered ls ty cb = false -> removeEventListener ls ty cb = ls.
Proof.
  unfold registered. induction ls as [| l ls IH]; cbn; [reflexivity |].
  destruct (Listener_eqb (ty, cb) l); cbn; [discriminate |].
  intros E. now rewrite IH.
Qed.

Lemma removeEventListener_incl ls ty cb l :
  In l (removeEventListener ls ty cb) -> In l ls.
Proof.
  induction ls as [| l' ls IH]; cbn; [exact id |].
  destruct (Listener_eqb (ty, cb) l'); cbn; intuition.
Qed.

(** On a list without duplicates, removal leaves no matching entry. *)
Lemma removeEventListener_NoDup ls ty cb :
  NoDup ls ->
  NoDup (removeEventListener ls ty cb)
  /\ registered (removeEventListener ls ty cb) ty cb = false.
Proof.
  induction 1 as [| l ls Hnin Hnd [IH1 IH2]]; cbn; [split; [constructor | reflexivity] |].
  destruct (Listener_eqb (ty, cb) l) eqn:E.
  - apply Listener_eqb_eq in E. subst l. split; [assumption |].
    destruct (registered ls ty cb) eqn:R; [| exact R].
    apply registered_In in R. contradiction.
  - split.
    + constructor; [| assumption].
      intros Hin. apply Hnin. eapply removeEventListener_incl, Hin.
    + unfold registered in *. cbn. now rewrite E.
Qed.

Lemma removeEventListener_addEventListener ls ty cb :
  registered ls ty cb = false ->
  removeEventListener (addEventListener ls ty cb) ty cb = ls.
Proof.
  unfold addEventListener, registered. intros E. rewrite E.
  induction ls as [| l ls IH]; cbn.
  - now rewrite Listener_eqb_refl.
  - cbn in E. destruct (Listener_eqb (ty, cb) l); [discriminate |].
    cbn in E. now rewrite IH.
Qed.

(** ** The controller *)

Section ResizerFacts.

Context {num : Type} `{JsNumber num}.
Local Open Scope js_scope.

(** The listener lists stay in one of their four shapes whatever happens. *)
Lemma step_wellFormed (i : Input) (w : World) :
  wellFormed w -> wellFormed (step i w).
Proof.
  intros Hwf. break_world w; break_input i; cbv; auto.
Qed.

Lemma run_wellFormed (inputs : list Input) (w : World) :
  wellFormed w -> wellFormed (run inputs w).
Proof.
  revert w. induction inputs as [| i inputs IH]; intros w Hwf.
  - exact Hwf.
  - change (run (i :: inputs) w) with (run inputs (step i w)).
    apply IH, step_wellFormed, Hwf.
Qed.

Lemma run_app (xs ys : list Input) (w : World) :
  run (xs ++ ys)%list w = run ys (run xs w).
Proof. apply fold_left_app. Qed.

(** Mounting on a page that has the divider and no listeners yet. *)
Lemma useEffect_resizer_mounts (w : World) :
  resizer w <> None -> Idle w -> Detached w ->
  fst (useEffect_resizer w) = Normal cleanup
  /\ wellFormed (snd (useEffect_resizer w))
  /\ Idle (snd (useEffect_resizer w))
  /\ Attached (snd (useEffect_resizer w)).
Proof.
  intros Hr Hi Hd. break_world w; cbv; auto.
Qed.

(** Every world a mounted controller can get into is well formed. *)
Lemma reachable_wellFormed (inputs : list Input) (w : World) :
  resizer w <> None -> Idle w -> Detached w ->
  wellFormed (run inputs (snd (useEffect_resizer w))).
Proof.
  intros Hr Hi Hd. apply run_wellFormed.
  apply (useEffect_resizer_mounts w Hr Hi Hd).
Qed.

(** *** Drag sessions *)

Lemma pointerDown_starts_session (w : World) (p : Element) (x : num) :
  wellFormed w -> Attached w -> leftPanel w = Some p ->
  inSession x (boundingWidth p) (step (pointerDown x) w).
Proof.
  intros Hwf Ha Hp. break_world w; cbv; repeat split; auto; discriminate.
Qed.

Lemma step_inSession (x0 width0 : num) (i : Input) (w : World) :
  inSession x0 width0 w -> keepsSession i = true ->
  inSession x0 width0 (step i w).
Proof.
  intros Hs Hk. break_world w; break_input i;
    cbv; repeat split; auto; discriminate.
Qed.

Lemma run_inSession (x0 width0 : num) (inputs : list Input) (w : World) :
  inSession x0 width0 w -> forallb keepsSession inputs = true ->
  inSession x0 width0 (run inputs w).
Proof.
  revert w. induction inputs as [| i inputs IH]; intros w Hs Hk.
  - exact Hs.
  - change (run (i :: inputs) w) with (run inputs (step i w)).
    cbn [forallb] in Hk.
    apply andb_prop in Hk as [Hi Hk].
    apply IH; [apply step_inSession |]; assumption.
Qed.

(** The move handler computes the width from the two captured values and the
    event alone. *)
Lemma pointerMove_leftStyle (x0 width0 : num) (t : Target) (x : num)
    (w : World) :
  inSession x0 width0 w ->
  leftStyle (step (pointerMove t x) w)
  = Some ("width: " ++ num_toString (width0 + (x - x0)) ++ "px").
Proof.
  intros Hs. break_world w; destruct t; reflexivity.
Qed.

(** Only a pointer-move writes to the panels. *)
Lemma step_styles_unchanged (i : Input) (w : World) :
  wellFormed w -> isPointerMove i = false ->
  leftStyle (step i w) = leftStyle w /\ rightStyle (step i w) = rightStyle w.
Proof.
  intros Hwf Hm. break_world w; break_input i; split; reflexivity.
Qed.

Lemma run_styles_unchanged (inputs : list Input) (w : World) :
  wellFormed w ->
  forallb (fun i => negb (isPointerMove i)) inputs = true ->
  leftStyle (run inputs w) = leftStyle w
  /\ rightStyle (run inputs w) = rightStyle w.
Proof.
  revert w. induction inputs as [| i inputs IH]; intros w Hwf Hm.
  - split; reflexivity.
  - change (run (i :: inputs) w) with (run inputs (step i w)).
    cbn [forallb] in Hm.
    apply andb_prop in Hm as [Hi Hm]. apply negb_true_iff in Hi.
    destruct (step_styles_unchanged i w Hwf Hi) as [El Er].
    destruct (IH (step i w) (step_wellFormed i w Hwf) Hm) as [El' Er'].
    split; congruence.
Qed.

(** C1: a drag that starts with a pointer-down at [x0] while the left panel is
    rendered [boundingWidth p] wide leaves the left panel, after any move of
    the session to [xl] and again after the pointer-up that ends it, with the
    width [boundingWidth p + (xl - x0)].  Whatever came between the
    pointer-down and that move (other moves, relayouts, viewport resizes) has
    no influence. *)
Theorem drag_final_width (w : World) (p : Element) (x0 xl xu : num)
    (t tu : Target) (pre post : list Input) :
  wellFormed w -> Attached w -> leftPanel w = Some p ->
  forallb keepsSession pre = true ->
  forallb (fun i => negb (isPointerMove i)) post = true ->
  leftStyle (run (pointerDown x0 :: pre ++ [pointerMove t xl]) w)
  = Some ("width: " ++ num_toString (boundingWidth p + (xl - x0)) ++ "px")
  /\ leftStyle
       (run (pointerDown x0 :: pre ++ pointerMove t xl :: post
               ++ [pointerUp tu xu]) w)
     = Some ("width: " ++ num_toString (boundingWidth p + (xl - x0)) ++ "px").
Proof.
  intros Hwf Ha Hp Hpre Hpost.
  pose proof (pointerDown_starts_session w p x0 Hwf Ha Hp) as Hs0.
  pose proof (run_inSession _ _ pre _ Hs0 Hpre) as Hs.
  assert (Hmove :
    leftStyle (run (pointerDown x0 :: pre ++ [pointerMove t xl]) w)
    = Some ("width: " ++ num_toString (boundingWidth p + (xl - x0)) ++ "px")).
  { change (pointerDown x0 :: pre ++ [pointerMove t xl])
      with ([pointerDown x0] ++ pre ++ [pointerMove t xl])%list.
    rewrite !run_app. cbn [run fold_left].
    apply pointerMove_leftStyle, Hs. }
  split; [exact Hmove |].
  rewrite <- Hmove.
  change (pointerDown x0 :: pre ++ pointerMove t xl :: post ++ [pointerUp tu xu])
    with ((pointerDown x0 :: pre) ++ [pointerMove t xl] ++ post
            ++ [pointerUp tu xu])%list.
  change (pointerDown x0 :: pre ++ [pointerMove t xl])
    with ((pointerDown x0 :: pre) ++ [pointerMove t xl])%list.
  rewrite !run_app.
  set (w1 := run [pointerMove t xl] (run (pointerDown x0 :: pre) w)).
  assert (Hwf1 : wellFormed w1) by (apply run_wellFormed, run_wellFormed, Hwf).
  destruct (run_styles_unchanged post w1 Hwf1 Hpost) as [El _].
  destruct (step_styles_unchanged (pointerUp tu xu) (run post w1)
              (run_wellFormed post w1 Hwf1) eq_refl) as [Eu _].
  cbn [run fold_left] in *. congruence.
Qed.

(** *** Pointer-move *)

(** While a session is active a pointer-move anywhere on the page writes both
    panels. *)
Lemma pointerMove_dragging (w : World) (t : Target) (x : num) :
  wellFormed w -> Dragging w -> panelsPresent w ->
  leftStyle (step (pointerMove t x) w)
  = Some ("width: "
            ++ num_toString (startWidth w + (x - startX w)) ++ "px")
  /\ rightStyle (step (pointerMove t x) w)
     = Some ("flex: 1 1 "
               ++ num_toString
                    (innerWidth w - (startWidth w + (x - startX w))
                       - num_lit 10)
               ++ "px").
Proof.
  intros Hwf Hd Hp. break_world w; destruct t; split; reflexivity.
Qed.

(** *** Idle *)

Lemma pointerMove_idle (w : World) (t : Target) (x : num) :
  wellFormed w -> Idle w -> step (pointerMove t x) w = w.
Proof.
  intros Hwf Hi. break_world w; destruct t; reflexivity.
Qed.

Lemma pointerUp_ends_session (w : World) (t : Target) (x : num) :
  wellFormed w -> Idle (step (pointerUp t x) w).
Proof.
  intros Hwf. break_world w; destruct t; reflexivity.
Qed.

Lemma step_Idle (i : Input) (w : World) :
  wellFormed w -> Idle w -> isDividerDown i = false -> Idle (step i w).
Proof.
  intros Hwf Hi Hd. break_world w; break_input i; reflexivity.
Qed.

Lemma run_Idle (inputs : list Input) (w : World) :
  wellFormed w -> Idle w ->
  forallb (fun i => negb (isDividerDown i)) inputs = true ->
  Idle (run inputs w).
Proof.
  revert w. induction inputs as [| i inputs IH]; intros w Hwf Hi Hd.
  - exact Hi.
  - change (run (i :: inputs) w) with (run inputs (step i w)).
    cbn [forallb] in Hd.
    apply andb_prop in Hd as [Hd0 Hd]. apply negb_true_iff in Hd0.
    apply IH; [apply step_wellFormed | apply step_Idle |]; assumption.
Qed.

(** C4: once a pointer-up has been handled, and as long as no pointer-down
    hits the divider, the controller is idle and a pointer-move changes
    nothing at all, the two panels' styles included; and in any idle state a
    pointer-move changes nothing. *)
Theorem pointerMove_after_pointerUp (w : World) (tu t : Target) (xu x : num)
    (inputs : list Input) :
  wellFormed w ->
  forallb (fun i => negb (isDividerDown i)) inputs = true ->
  Idle (run inputs (step (pointerUp tu xu) w))
  /\ step (pointerMove t x) (run inputs (step (pointerUp tu xu) w))
     = run inputs (step (pointerUp tu xu) w)
  /\ (Idle w -> step (pointerMove t x) w = w).
Proof.
  intros Hwf Hin.
  assert (Hwf1 : wellFormed (step (pointerUp tu xu) w))
    by apply step_wellFormed, Hwf.
  assert (Hi : Idle (run inputs (step (pointerUp tu xu) w))).
  { apply run_Idle; [exact Hwf1 | apply pointerUp_ends_session, Hwf | exact Hin]. }
  split; [exact Hi |]. split.
  - apply pointerMove_idle; [apply run_wellFormed, Hwf1 | exact Hi].
  - intros Hi0. apply pointerMove_idle; assumption.
Qed.

(** C5: with no session active a pointer-up leaves the world as it is (no
    style is written, nothing is reported), the handler itself would return
    normally without a change, and handling a second pointer-up after a first
    one changes nothing in any state. *)
Theorem pointerUp_idle_noop (w : World) (t t' : Target) (x x' : num) :
  wellFormed w ->
  (Idle w ->
     step (pointerUp t x) w = w /\ onMouseUp w = (Normal tt, w))
  /\ step (pointerUp t' x') (step (pointerUp t x) w) = step (pointerUp t x) w.
Proof.
  intros Hwf. split.
  - intros Hi. break_world w; destruct t; split; reflexivity.
  - break_world w; destruct t, t'; reflexivity.
Qed.

(** *** Detaching *)

Lemma Detach_detaches (w : World) : wellFormed w -> Detached (step Detach w).
Proof.
  intros Hwf. break_world w; reflexivity.
Qed.

Lemma step_Detached (i : Input) (w : World) :
  wellFormed w -> Detached w -> Detached (step i w).
Proof.
  intros Hwf Hd. break_world w; break_input i; reflexivity.
Qed.

Lemma run_Detached (inputs : list Input) (w : World) :
  wellFormed w -> Detached w -> Detached (run inputs w).
Proof.
  revert w. induction inputs as [| i inputs IH]; intros w Hwf Hd.
  - exact Hd.
  - change (run (i :: inputs) w) with (run inputs (step i w)).
    apply IH; [apply step_wellFormed | apply step_Detached]; assumption.
Qed.

Lemma pointerDown_detached (w : World) (x : num) :
  wellFormed w -> Detached w -> step (pointerDown x) w = w.
Proof.
  intros Hwf Hd. break_world w; reflexivity.
Qed.

(** C6: the cleanup leaves the divider without the pointer-down listener, and
    from then on, whatever else happens, a pointer-down on the divider
    changes nothing: no listener is installed on [document], no start value
    is captured, no style is written. *)
Theorem pointerDown_after_detach (w : World) (inputs : list Input) (x : num) :
  wellFormed w ->
  registered (listeners_of TheResizer (step Detach w)) mousedown OnMouseDown
  = false
  /\ step (pointerDown x) (run inputs (step Detach w))
     = run inputs (step Detach w).
Proof.
  intros Hwf.
  pose proof (Detach_detaches w Hwf) as Hd.
  pose proof (step_wellFormed Detach w Hwf) as Hwf1.
  split.
  - unfold Detached in Hd. rewrite Hd. reflexivity.
  - apply pointerDown_detached.
    + apply run_wellFormed, Hwf1.
    + apply run_Detached; assumption.
Qed.

(** C7: a pointer-down on the divider stores the event's [clientX] in
    [startX] and the width of the left panel's bounding rectangle in
    [startWidth]; when the panel has just been laid out at some width [r],
    that is the width the session starts from, whatever [startWidth] held
    before and whatever the panel's style attribute says. *)
Theorem pointerDown_captures (w : World) (p : Element) (x r : num) :
  wellFormed w -> Attached w -> leftPanel w = Some p ->
  startX (step (pointerDown x) w) = x
  /\ startWidth (step (pointerDown x) w) = boundingWidth p
  /\ startWidth (step (pointerDown x) (step (Layout r) w)) = r.
Proof.
  intros Hwf Ha Hp. break_world w; repeat split; reflexivity.
Qed.

Lemma step_Dragging_detached (i : Input) (w : World) :
  wellFormed w -> Detached w -> Dragging w -> isPointerUp i = false ->
  Dragging (step i w).
Proof.
  intros Hwf Hd Hg Hu. break_world w; break_input i; reflexivity.
Qed.

Lemma run_Dragging_detached (inputs : list Input) (w : World) :
  wellFormed w -> Detached w -> Dragging w ->
  forallb (fun i => negb (isPointerUp i)) inputs = true ->
  Dragging (run inputs w).
Proof.
  revert w. induction inputs as [| i inputs IH]; intros w Hwf Hd Hg Hu.
  - exact Hg.
  - change (run (i :: inputs) w) with (run inputs (step i w)).
    cbn [forallb] in Hu.
    apply andb_prop in Hu as [Hu0 Hu]. apply negb_true_iff in Hu0.
    apply IH; [apply step_wellFormed | apply step_Detached
              | apply step_Dragging_detached |]; assumption.
Qed.

(** C8: the cleanup run in the middle of a drag session takes the
    pointer-down listener off the divider and leaves the listeners of
    [document] as they are; the session goes on until the next pointer-up,
    which then removes them. *)
Theorem detach_while_dragging (w : World) (inputs : list Input)
    (t : Target) (x : num) :
  wellFormed w -> Dragging w ->
  forallb (fun i => negb (isPointerUp i)) inputs = true ->
  Detached (step Detach w)
  /\ document_listeners (step Detach w) = document_listeners w
  /\ Dragging (run inputs (step Detach w))
  /\ Idle (step (pointerUp t x) (run inputs (step Detach w))).
Proof.
  intros Hwf Hg Hu.
  pose proof (Detach_detaches w Hwf) as Hd.
  pose proof (step_wellFormed Detach w Hwf) as Hwf1.
  assert (Hdoc : document_listeners (step Detach w) = document_listeners w)
    by (clear Hd Hwf1 Hu; break_world w; reflexivity).
  repeat split; try assumption.
  - apply run_Dragging_detached; try assumption.
    unfold Dragging in *. congruence.
  - apply pointerUp_ends_session, run_wellFormed, Hwf1.
Qed.

(** C9: during a session the two registrations that a pointer-down on the
    divider makes find their listeners already there and add nothing; the
    pointer-down leaves the listener list of [document] as it is, free of
    duplicates, and changes nothing but
    the two captured values: [startX] becomes the event's [clientX] and
    [startWidth] the current width of the left panel's bounding rectangle. *)
Theorem pointerDown_while_dragging (w : World) (p : Element) (x : num) :
  wellFormed w -> Attached w -> Dragging w -> leftPanel w = Some p ->
  addEventListener (document_listeners w) mousemove OnMouseMove
  = document_listeners w
  /\ addEventListener (document_listeners w) mouseup OnMouseUp
     = document_listeners w
  /\ document_listeners (step (pointerDown x) w) = document_listeners w
  /\ NoDup (document_listeners (step (pointerDown x) w))
  /\ step (pointerDown x) w
     = with_startWidth (boundingWidth p) (with_startX x w).
Proof.
  intros Hwf Ha Hg Hp. break_world w; repeat split; try reflexivity;
    cbv; repeat constructor; cbn; intuition discriminate.
Qed.

End ResizerFacts.


(** ** The style change handler *)

Module StyleEditorFacts.
Import StyleEditor.

Lemma ToBoolean_false (v : JsValue) :
  ToBoolean v = false <-> v = undefined \/ v = null.
Proof.
  destruct v; cbn; split; intros E; auto; try discriminate;
    destruct E; discriminate.
Qed.

Lemma onCodeEditorChange_truthy (s : GsStyle) (st : AppState) :
  style (onCodeEditorChange (object s) st) = object s.
Proof. reflexivity. Qed.

(** C10: when the widget hands over [null] or [undefined], the handler logs
    the value and returns before [setStyle]: the style state is the one it
    was. *)
Theorem onCodeEditorChange_falsy (v : JsValue) (st : AppState) :
  v = undefined \/ v = null ->
  style (onCodeEditorChange v st) = style st
  /\ onCodeEditorChange v st = console_log v st.
Proof.
  intros [-> | ->]; split; reflexivity.
Qed.

Lemma onCodeEditorChange_falsy_witness :
  (null = undefined \/ null = null)
  /\ style (onCodeEditorChange null initialState) = style initialState
  /\ onCodeEditorChange null initialState = console_log null initialState.
Proof.
  split; [right; reflexivity |].
  apply (onCodeEditorChange_falsy null initialState). right. reflexivity.
Defined.

End StyleEditorFacts.

(** ** The scenario of the specification, on integers *)

Section ScenarioFacts.

Import Scenario.
Local Open Scope Z_scope.

Lemma mounted_wellFormed : wellFormed mounted.
Proof. split; left; reflexivity. Defined.

Lemma dragging_wellFormed : wellFormed dragging.
Proof. split; [right | left]; reflexivity. Defined.

(** The drag of the specification: down at 300, moves to 350 and 280, up. *)
Example scenario_dropped :
  leftStyle dragging = Some "width: 350px"
  /\ rightStyle dragging = Some "flex: 1 1 840px"
  /\ leftStyle dropped = Some "width: 280px"
  /\ rightStyle dropped = Some "flex: 1 1 910px"
  /\ Idle dropped
  /\ uncaught dropped = [].
Proof. repeat split. Qed.

Lemma drag_final_width_witness :
  leftStyle
    (run (pointerDown 300
            :: [pointerMove Elsewhere 350; Layout 350; Resize 1000]
            ++ [pointerMove Divider 280]) mounted)
  = Some "width: 280px"
  /\ leftStyle
       (run (pointerDown 300
               :: [pointerMove Elsewhere 350; Layout 350; Resize 1000]
               ++ pointerMove Divider 280
               :: [Layout 280] ++ [pointerUp Elsewhere 280]) mounted)
     = Some "width: 280px".
Proof.
  exact (drag_final_width mounted (panel 300) 300 280 280 Divider Elsewhere
           [pointerMove Elsewhere 350; Layout 350; Resize 1000] [Layout 280]
           mounted_wellFormed eq_refl eq_refl eq_refl eq_refl).
Defined.


Lemma pointerMove_after_pointerUp_witness :
  Idle (run [Layout 280; pointerUp Elsewhere 281]
          (step (pointerUp Elsewhere 280) dragging))
  /\ step (pointerMove Elsewhere 500)
       (run [Layout 280; pointerUp Elsewhere 281]
          (step (pointerUp Elsewhere 280) dragging))
     = run [Layout 280; pointerUp Elsewhere 281]
         (step (pointerUp Elsewhere 280) dragging)
  /\ (Idle dragging -> step (pointerMove Elsewhere 500) dragging = dragging).
Proof.
  exact (pointerMove_after_pointerUp dragging Elsewhere Elsewhere 280 500
           [Layout 280; pointerUp Elsewhere 281] dragging_wellFormed eq_refl).
Defined.

Lemma pointerUp_idle_noop_witness :
  Idle mounted
  /\ step (pointerUp Elsewhere 280) mounted = mounted
  /\ onMouseUp mounted = (Normal tt, mounted)
  /\ step (pointerUp Divider 7) (step (pointerUp Elsewhere 280) mounted)
     = step (pointerUp Elsewhere 280) mounted.
Proof.
  destruct (pointerUp_idle_noop mounted Elsewhere Divider 280 7
              mounted_wellFormed) as [Hidle Htwice].
  destruct (Hidle eq_refl) as [Hstep Hhandler].
  repeat split; assumption.
Defined.

Lemma pointerDown_after_detach_witness :
  registered (listeners_of TheResizer (step Detach mounted))
    mousedown OnMouseDown = false
  /\ step (pointerDown 300)
       (run [pointerMove Elsewhere 10; Resize 800] (step Detach mounted))
     = run [pointerMove Elsewhere 10; Resize 800] (step Detach mounted).
Proof.
  exact (pointerDown_after_detach mounted
           [pointerMove Elsewhere 10; Resize 800] 300 mounted_wellFormed).
Defined.

Lemma pointerDown_captures_witness :
  startX (step (pointerDown 300) mounted) = 300
  /\ startWidth (step (pointerDown 300) mounted) = 300
  /\ startWidth (step (pointerDown 300) (step (Layout 412) mounted)) = 412.
Proof.
  exact (pointerDown_captures mounted (panel 300) 300 412 mounted_wellFormed
           eq_refl eq_refl).
Defined.

Lemma detach_while_dragging_witness :
  Detached (step Detach dragging)
  /\ document_listeners (step Detach dragging) = document_listeners dragging
  /\ Dragging (run [pointerMove Elsewhere 280; pointerDown 5]
                 (step Detach dragging))
  /\ Idle (step (pointerUp Elsewhere 280)
             (run [pointerMove Elsewhere 280; pointerDown 5]
                (step Detach dragging))).
Proof.
  exact (detach_while_dragging dragging
           [pointerMove Elsewhere 280; pointerDown 5] Elsewhere 280
           dragging_wellFormed eq_refl eq_refl).
Defined.

Lemma pointerDown_while_dragging_witness :
  addEventListener (document_listeners dragging) mousemove OnMouseMove
  = document_listeners dragging
  /\ addEventListener (document_listeners dragging) mouseup OnMouseUp
     = document_listeners dragging
  /\ document_listeners (step (pointerDown 340) dragging)
     = document_listeners dragging
  /\ NoDup (document_listeners (step (pointerDown 340) dragging))
  /\ step (pointerDown 340) dragging
     = with_startWidth 300 (with_startX 340 dragging).
Proof.
  exact (pointerDown_while_dragging dragging
           {| style := Some "width: 350px"; boundingWidth := 300 |} 340
           dragging_wellFormed eq_refl eq_refl eq_refl).
Defined.

(** C2 as the specification has it fails on the page without a divider: the
    ref is dereferenced without a guard, so the effect ends with a
    [TypeError] instead of returning. *)
Lemma attach_without_divider_not_silent :
  resizer pageWithoutDivider = None
  /\ fst (useEffect_resizer pageWithoutDivider) = Throw TypeError
  /\ ~ (exists c,
          useEffect_resizer pageWithoutDivider
          = (Normal c, pageWithoutDivider)).
Proof.
  split; [reflexivity |]. split; [reflexivity |].
  intros [c E]. discriminate E.
Qed.

End ScenarioFacts.

(** * Further properties of the resizer *)

Section ResizerExtras.

Context {num : Type} `{JsNumber num}.
Local Open Scope js_scope.

Lemma run_cons (i : Input) (inputs : list Input) (w : World) :
  run (i :: inputs) w = run inputs (step i w).
Proof. reflexivity. Qed.

(** X1: on an attached, idle controller whose divider has a left sibling, a
    pointer-down on the divider starts a session: [document] gets the move
    and the up listener, in this order, the two start values are captured,
    and nothing else changes (no style is written, nothing is reported). *)
Theorem pointerDown_starts_drag (w : World) (p : Element) (x : num) :
  wellFormed w -> Attached w -> Idle w -> leftPanel w = Some p ->
  Dragging (step (pointerDown x) w)
  /\ step (pointerDown x) w
     = with_document_listeners
         [(mousemove, OnMouseMove); (mouseup, OnMouseUp)]
         (with_startWidth (boundingWidth p) (with_startX x w)).
Proof.
  intros Hwf Ha Hi Hp. break_world w; split; reflexivity.
Qed.

(** X2: a pointer-down that does not hit the divider changes nothing, in
    any state of the controller. *)
Theorem pointerDown_outside_noop (w : World) (x : num) :
  wellFormed w -> step (pointerDownOutside x) w = w.
Proof.
  intros Hwf. break_world w; reflexivity.
Qed.

(** X3: a panel's style attribute changes only through a pointer-move that
    arrives during a session. *)
Theorem styles_change_only_by_session_move (i : Input) (w : World) :
  wellFormed w ->
  leftStyle (step i w) <> leftStyle w \/ rightStyle (step i w) <> rightStyle w ->
  isPointerMove i = true /\ Dragging w.
Proof.
  intros Hwf Hch.
  destruct (isPointerMove i) eqn:Hm.
  - split; [reflexivity |].
    destruct Hwf as [[Hi | Hd] Hr]; [| exact Hd].
    exfalso.
    destruct i as [[[] tg x] | | |]; try discriminate Hm.
    pose proof (pointerMove_idle w tg x (conj (or_introl Hi) Hr) Hi) as E.
    change (Pointer {| type := mousemove; target := tg; clientX := x |})
      with (pointerMove tg x) in Hch.
    rewrite E in Hch. destruct Hch as [Hc | Hc]; apply Hc; reflexivity.
  - exfalso.
    destruct (step_styles_unchanged i w Hwf Hm) as [El Er].
    destruct Hch as [Hc | Hc]; contradiction.
Qed.

Lemma step_start_values (i : Input) (w : World) :
  wellFormed w -> isDividerDown i = false ->
  startX (step i w) = startX w /\ startWidth (step i w) = startWidth w.
Proof.
  intros Hwf Hd. break_world w; break_input i; split; reflexivity.
Qed.

(** X4: the two captured values change only through a pointer-down on the
    divider: any sequence of other inputs leaves [startX] and [startWidth]
    as they are. *)
Theorem start_values_kept (inputs : list Input) (w : World) :
  wellFormed w ->
  forallb (fun i => negb (isDividerDown i)) inputs = true ->
  startX (run inputs w) = startX w
  /\ startWidth (run inputs w) = startWidth w.
Proof.
  revert w. induction inputs as [| i inputs IH]; intros w Hwf Hd.
  - split; reflexivity.
  - rewrite run_cons. cbn [forallb] in Hd.
    apply andb_prop in Hd as [Hd0 Hd]. apply negb_true_iff in Hd0.
    destruct (step_start_values i w Hwf Hd0) as [Ex Ew].
    destruct (IH (step i w) (step_wellFormed i w Hwf) Hd) as [Ex' Ew'].
    split; congruence.
Qed.

(** X5: when the divider has a left sibling and no right sibling, a
    pointer-move during a session still writes the left panel's width; the
    missing right sibling is then reported as one uncaught [TypeError], and
    the session goes on. *)
Theorem pointerMove_without_right_panel (w : World) (p : Element)
    (t : Target) (x : num) :
  wellFormed w -> Dragging w ->
  leftPanel w = Some p -> rightPanel w = None ->
  leftStyle (step (pointerMove t x) w)
  = Some ("width: " ++ num_toString (startWidth w + (x - startX w)) ++ "px")
  /\ rightPanel (step (pointerMove t x) w) = None
  /\ uncaught (step (pointerMove t x) w) = (uncaught w ++ [TypeError])%list
  /\ Dragging (step (pointerMove t x) w).
Proof.
  intros Hwf Hd Hp Hr. break_world w; destruct t; repeat split; reflexivity.
Qed.

Lemma step_no_uncaught (i : Input) (w : World) :
  wellFormed w -> panelsPresent w ->
  panelsPresent (step i w) /\ uncaught (step i w) = uncaught w.
Proof.
  intros Hwf Hp. break_world w; break_input i;
    cbv; repeat split; auto; discriminate.
Qed.

(** X6: as long as the divider has both its siblings, no input makes a
    handler or the cleanup throw: nothing is ever reported. *)
Theorem no_uncaught_with_panels (inputs : list Input) (w : World) :
  wellFormed w -> panelsPresent w ->
  uncaught (run inputs w) = uncaught w.
Proof.
  revert w. induction inputs as [| i inputs IH]; intros w Hwf Hp.
  - reflexivity.
  - rewrite run_cons.
    destruct (step_no_uncaught i w Hwf Hp) as [Hp' Eu].
    rewrite (IH (step i w) (step_wellFormed i w Hwf) Hp'). exact Eu.
Qed.

(** X7: a press and release on the divider with no pointer-move in between
    writes no style at all, and leaves the controller idle. *)
Theorem click_writes_no_style (w : World) (x xu : num) (tu : Target)
    (inputs : list Input) :
  wellFormed w ->
  forallb (fun i => negb (isPointerMove i)) inputs = true ->
  leftStyle (run (pointerDown x :: inputs ++ [pointerUp tu xu]) w)
  = leftStyle w
  /\ rightStyle (run (pointerDown x :: inputs ++ [pointerUp tu xu]) w)
     = rightStyle w
  /\ Idle (run (pointerDown x :: inputs ++ [pointerUp tu xu]) w).
Proof.
  intros Hwf Hm.
  assert (Hall : forallb (fun i => negb (isPointerMove i))
                   (pointerDown x :: inputs ++ [pointerUp tu xu]) = true).
  { cbn [forallb]. rewrite forallb_app, Hm. reflexivity. }
  destruct (run_styles_unchanged _ w Hwf Hall) as [El Er].
  repeat split; try assumption.
  change (pointerDown x :: inputs ++ [pointerUp tu xu])
    with ((pointerDown x :: inputs) ++ [pointerUp tu xu])%list.
  rewrite run_app. apply pointerUp_ends_session, run_wellFormed, Hwf.
Qed.

(** X8: mounting and then cleaning up leaves the page as it was found, but
    for the two start values set to 0: the divider's listener list is again
    the one it had. *)
Theorem mount_then_cleanup (w : World) (r : ResizerNode) :
  resizer w = Some r ->
  registered (listeners r) mousedown OnMouseDown = false ->
  fst (useEffect_resizer w) = Normal cleanup
  /\ cleanup (snd (useEffect_resizer w))
     = (Normal tt, with_startWidth (num_lit 0) (with_startX (num_lit 0) w)).
Proof.
  intros Hr Hn.
  destruct w as [[[? ? ls] |] ? ? ? ? ?]; cbn in Hr; [| discriminate].
  injection Hr as <-. cbn [listeners] in Hn.
  split; [reflexivity |].
  unfold useEffect_resizer, cleanup, bind, modify, gets, deref, ret,
    update_listeners, with_resizer, with_listeners, with_startX,
    with_startWidth.
  cbn. rewrite removeEventListener_addEventListener by exact Hn. reflexivity.
Qed.

(** X9: from the mount on, the move and the up listener are on [document]
    together or not at all. *)
Theorem session_listeners_paired (inputs : list Input) (w : World) :
  resizer w <> None -> Idle w -> Detached w ->
  (Idle (run inputs (snd (useEffect_resizer w)))
   \/ Dragging (run inputs (snd (useEffect_resizer w))))
  /\ registered (document_listeners (run inputs (snd (useEffect_resizer w))))
       mousemove OnMouseMove
     = registered (document_listeners (run inputs (snd (useEffect_resizer w))))
         mouseup OnMouseUp.
Proof.
  intros Hr Hi Hd.
  destruct (reachable_wellFormed inputs w Hr Hi Hd) as [Hs _].
  split; [exact Hs |].
  destruct Hs as [E | E]; unfold Idle, Dragging in E; rewrite E; reflexivity.
Qed.

End ResizerExtras.

(** * The failure path *)

Section FailurePath.

Context {num : Type} `{JsNumber num}.

Lemma useEffect_resizer_keeps_panels (w : World) :
  panelsPresent w ->
  panelsPresent (snd (useEffect_resizer w))
  /\ uncaught (snd (useEffect_resizer w)) = uncaught w.
Proof.
  intros Hp. break_world w; cbv; repeat split; discriminate.
Qed.

Lemma run_no_uncaught (inputs : list Input) (w : World) :
  wellFormed w -> panelsPresent w -> uncaught (run inputs w) = uncaught w.
Proof.
  revert w. induction inputs as [| i inputs IH]; intros w Hwf Hp.
  - reflexivity.
  - rewrite run_cons.
    destruct (step_no_uncaught i w Hwf Hp) as [Hp' Eu].
    rewrite (IH (step i w) (step_wellFormed i w Hwf) Hp'). exact Eu.
Qed.

(** C2 (amended): with no divider element the effect is not a silent no-op:
    it throws a [TypeError], before any listener is installed; with the
    divider present it returns its cleanup.  That is the only failure path:
    on the page as it is rendered, the divider between its two panels, no
    handler and no cleanup ever throws, whatever the inputs. *)
Theorem useEffect_resizer_only_failure (w : World) (inputs : list Input) :
  (resizer w = None ->
     useEffect_resizer w
     = (Throw TypeError,
        with_startWidth (num_lit 0) (with_startX (num_lit 0) w)))
  /\ (resizer w <> None -> fst (useEffect_resizer w) = Normal cleanup)
  /\ (panelsPresent w -> Idle w -> Detached w ->
        fst (useEffect_resizer w) = Normal cleanup
        /\ uncaught (run inputs (snd (useEffect_resizer w))) = uncaught w).
Proof.
  split; [| split].
  - intros Hr. destruct w as [[r |] ? ? ? ? ?]; [discriminate | reflexivity].
  - intros Hr. destruct w as [[r |] ? ? ? ? ?]; [reflexivity | contradiction].
  - intros Hp Hi Hd.
    assert (Hr : resizer w <> None).
    { destruct Hp as [Hl _]. unfold leftPanel in Hl.
      destruct (resizer w); [discriminate | contradiction]. }
    destruct (useEffect_resizer_mounts w Hr Hi Hd) as (Hc & Hwf & _ & _).
    destruct (useEffect_resizer_keeps_panels w Hp) as [Hp' Eu].
    split; [exact Hc |].
    rewrite (run_no_uncaught inputs _ Hwf Hp'). exact Eu.
Qed.

End FailurePath.

(** ** Integer widths *)

Section IntegerWidths.

Local Open Scope Z_scope.

(** X10: the width is not clamped.  For pixel values in the range where
    the handlers' arithmetic on doubles is exact, any integer [n] of that
    range, a negative one or one beyond the viewport included, becomes the
    left panel's width during a session when the pointer is [n - startWidth]
    away from where the session started, and the right panel's basis is then
    [innerWidth - n - 10]. *)
Theorem no_width_clamp (w : @World Z) (t : Target) (n : Z) :
  wellFormed w -> Dragging w -> panelsPresent w ->
  pixel (startX w) = true -> pixel (startWidth w) = true ->
  pixel (innerWidth w) = true -> pixel n = true ->
  leftStyle (step (pointerMove t (startX w + (n - startWidth w))) w)
  = Some ("width: " ++ Z_toString n ++ "px")
  /\ rightStyle (step (pointerMove t (startX w + (n - startWidth w))) w)
     = Some ("flex: 1 1 " ++ Z_toString (innerWidth w - n - 10) ++ "px").
Proof.
  intros Hwf Hd Hp _ _ _ _.
  destruct (pointerMove_dragging w t (startX w + (n - startWidth w)) Hwf Hd Hp)
    as [El Er].
  rewrite El, Er. cbn [num_add num_sub num_lit num_toString Z_JsNumber].
  replace (startWidth w + (startX w + (n - startWidth w) - startX w)) with n
    by ring.
  split; reflexivity.
Qed.

End IntegerWidths.

(** * Further properties of the application state *)

Module StyleHistoryFacts.
Import StyleEditor StyleHistory.

Lemma onCodeEditorChanges_snoc (vs : list JsValue) (v : JsValue)
    (st : AppState) :
  onCodeEditorChanges (vs ++ [v]) st
  = onCodeEditorChange v (onCodeEditorChanges vs st).
Proof. unfold onCodeEditorChanges. now rewrite fold_left_app. Qed.

Lemma style_after_changes (vs : list JsValue) (st : AppState) :
  style (onCodeEditorChanges vs st) = last (filter ToBoolean vs) (style st).
Proof.
  induction vs as [| v vs IH] using rev_ind.
  - reflexivity.
  - rewrite onCodeEditorChanges_snoc, filter_app.
    destruct v; cbn [filter ToBoolean].
    + rewrite app_nil_r. exact IH.
    + rewrite app_nil_r. exact IH.
    + rewrite last_last. reflexivity.
Qed.

Lemma console_after_changes (vs : list JsValue) (st : AppState) :
  console (onCodeEditorChanges vs st) = (console st ++ vs)%list.
Proof.
  induction vs as [| v vs IH] using rev_ind.
  - cbn. now rewrite app_nil_r.
  - rewrite onCodeEditorChanges_snoc, app_assoc, <- IH.
    destruct v; reflexivity.
Qed.

(** X12: after any sequence of edits the style state is the last truthy
    value the widget handed over, or the old state where there was none, and
    the console has every value, the falsy ones too, in the order of
    arrival. *)
Theorem style_is_last_truthy (vs : list JsValue) (st : AppState) :
  style (onCodeEditorChanges vs st)
  = last (filter ToBoolean vs) (style st)
  /\ console (onCodeEditorChanges vs st) = (console st ++ vs)%list.
Proof.
  split; [apply style_after_changes | apply console_after_changes].
Qed.

(** X13: the guard keeps the style state a style document: once it holds an
    object, it holds an object after any sequence of edits. *)
Theorem style_stays_truthy (vs : list JsValue) (st : AppState) :
  ToBoolean (style st) = true ->
  ToBoolean (style (onCodeEditorChanges vs st)) = true.
Proof.
  intros Ht. induction vs as [| v vs IH] using rev_ind.
  - exact Ht.
  - rewrite onCodeEditorChanges_snoc. destruct v; cbn; [exact IH .. |].
    reflexivity.
Qed.

Lemma style_stays_truthy_witness :
  ToBoolean (style initialState) = true
  /\ ToBoolean
       (style (onCodeEditorChanges
                 [null; object {| name := "Edited"; rules := [] |}; undefined]
                 initialState))
     = true.
Proof.
  split; [reflexivity |].
  exact (style_stays_truthy
           [null; object {| name := "Edited"; rules := [] |}; undefined]
           initialState eq_refl).
Defined.

Lemma onStyleChanges_snoc (vs : list JsValue) (v : JsValue) (st : AppState) :
  LegacyApp.onStyleChanges (vs ++ [v]) st
  = LegacyApp.onStyleChange v (LegacyApp.onStyleChanges vs st).
Proof. unfold LegacyApp.onStyleChanges. now rewrite fold_left_app. Qed.

(** X14: the earlier [App.tsx], which hands [setStyle] to the widget, ends
    with whatever value came last, a falsy one included; the guarded handler
    ends with the style state the earlier one reaches when the falsy values
    are dropped from the sequence. *)
Theorem guard_filters_falsy (vs : list JsValue) (st : AppState) :
  style (LegacyApp.onStyleChanges vs st) = last vs (style st)
  /\ style (onCodeEditorChanges vs st)
     = style (LegacyApp.onStyleChanges (filter ToBoolean vs) st).
Proof.
  assert (Hlegacy : forall us,
             style (LegacyApp.onStyleChanges us st) = last us (style st)).
  { induction us as [| u us IH] using rev_ind.
    - reflexivity.
    - rewrite onStyleChanges_snoc, last_last. reflexivity. }
  split; [apply Hlegacy |].
  rewrite Hlegacy. apply style_after_changes.
Qed.

End StyleHistoryFacts.

Module DataLoaderFacts.
Import DataLoader.

Section Loader.

Variable GsData : Type.

Lemma handleAll_snoc (evs : list (LoaderEvent GsData))
    (ev : LoaderEvent GsData) (st : LoaderState GsData) :
  handleAll GsData (evs ++ [ev]) st = handle GsData ev (handleAll GsData evs st).
Proof. unfold handleAll. now rewrite fold_left_app. Qed.

(** X15: after any sequence of reads and removals the data state is the
    dataset of the last event when that was a read and [undefined] when it
    was a removal; every read, and nothing else, has shown one
    "Loaded successfully!" notification and logged its dataset. *)
Theorem loader_history (evs : list (LoaderEvent GsData))
    (st : LoaderState GsData) :
  data GsData (handleAll GsData evs st)
  = lastData GsData evs (data GsData st)
  /\ notifications GsData (handleAll GsData evs st)
     = (notifications GsData st
          ++ repeat "Loaded successfully!" (List.length (reads GsData evs)))%list
  /\ console GsData (handleAll GsData evs st)
     = (console GsData st ++ reads GsData evs)%list.
Proof.
  induction evs as [| ev evs (IHd & IHn & IHc)] using rev_ind.
  - cbn. rewrite !app_nil_r. repeat split.
  - rewrite handleAll_snoc. unfold lastData, reads.
    rewrite map_app. cbn [map].
    rewrite last_last, flat_map_app, List.length_app, repeat_app.
    fold (reads GsData evs).
    destruct ev as [d |]; cbn [handle onDataRead onRemove data notifications
                                 console flat_map app length repeat].
    + rewrite IHn, IHc, <- !app_assoc. repeat split.
    + rewrite IHn, IHc, !app_nil_r. repeat split.
Qed.

End Loader.

End DataLoaderFacts.

(** ** The further properties on concrete pages *)

Section ExtraScenarioFacts.

Import Scenario EdgePages.
Local Open Scope Z_scope.

Lemma draggingWithoutRightPanel_wellFormed :
  wellFormed draggingWithoutRightPanel.
Proof. split; [right | left]; reflexivity. Defined.

Lemma pointerDown_starts_drag_witness :
  Dragging (step (pointerDown 300) mounted)
  /\ step (pointerDown 300) mounted
     = with_document_listeners
         [(mousemove, OnMouseMove); (mouseup, OnMouseUp)]
         (with_startWidth 300 (with_startX 300 mounted)).
Proof.
  exact (pointerDown_starts_drag mounted (panel 300) 300 mounted_wellFormed
           eq_refl eq_refl eq_refl).
Defined.

Lemma pointerDown_outside_noop_witness :
  step (pointerDownOutside 300) dragging = dragging.
Proof.
  exact (pointerDown_outside_noop dragging 300 dragging_wellFormed).
Defined.

Lemma styles_change_only_by_session_move_witness :
  isPointerMove (pointerMove Elsewhere 280) = true /\ Dragging dragging.
Proof.
  apply (styles_change_only_by_session_move (pointerMove Elsewhere 280)
           dragging dragging_wellFormed).
  left. discriminate.
Defined.

Lemma start_values_kept_witness :
  startX (run [pointerMove Elsewhere 350; Layout 350; pointerUp Elsewhere 350;
               pointerDownOutside 20; Detach] dragging) = 300
  /\ startWidth
       (run [pointerMove Elsewhere 350; Layout 350; pointerUp Elsewhere 350;
             pointerDownOutside 20; Detach] dragging) = 300.
Proof.
  exact (start_values_kept
           [pointerMove Elsewhere 350; Layout 350; pointerUp Elsewhere 350;
            pointerDownOutside 20; Detach] dragging dragging_wellFormed
           eq_refl).
Defined.

Lemma pointerMove_without_right_panel_witness :
  leftStyle (step (pointerMove Elsewhere 350) draggingWithoutRightPanel)
  = Some "width: 350px"
  /\ rightPanel (step (pointerMove Elsewhere 350) draggingWithoutRightPanel)
     = None
  /\ uncaught (step (pointerMove Elsewhere 350) draggingWithoutRightPanel)
     = [TypeError]
  /\ Dragging (step (pointerMove Elsewhere 350) draggingWithoutRightPanel).
Proof.
  exact (pointerMove_without_right_panel draggingWithoutRightPanel
           (panel 300) Elsewhere 350 draggingWithoutRightPanel_wellFormed
           eq_refl eq_refl eq_refl).
Defined.

Lemma no_uncaught_with_panels_witness :
  uncaught
    (run [pointerDown 300; pointerMove Elsewhere 350; Detach;
          pointerMove Divider 280; pointerUp Elsewhere 280; pointerDown 1]
       mounted)
  = [].
Proof.
  refine (no_uncaught_with_panels
            [pointerDown 300; pointerMove Elsewhere 350; Detach;
             pointerMove Divider 280; pointerUp Elsewhere 280; pointerDown 1]
            mounted mounted_wellFormed _).
  split; discriminate.
Defined.

Lemma click_writes_no_style_witness :
  leftStyle
    (run (pointerDown 300 :: [Layout 300; Resize 1100]
            ++ [pointerUp Divider 300]) dragging)
  = Some "width: 350px"
  /\ rightStyle
       (run (pointerDown 300 :: [Layout 300; Resize 1100]
               ++ [pointerUp Divider 300]) dragging)
     = Some "flex: 1 1 840px"
  /\ Idle
       (run (pointerDown 300 :: [Layout 300; Resize 1100]
               ++ [pointerUp Divider 300]) dragging).
Proof.
  exact (click_writes_no_style dragging 300 300 Divider
           [Layout 300; Resize 1100] dragging_wellFormed eq_refl).
Defined.

Lemma mount_then_cleanup_witness :
  fst (useEffect_resizer page) = Normal cleanup
  /\ cleanup (snd (useEffect_resizer page)) = (Normal tt, page).
Proof.
  exact (mount_then_cleanup page
           {| previousElementSibling := Some (panel 300);
              nextElementSibling := Some (panel 890);
              listeners := [] |} eq_refl eq_refl).
Defined.

Lemma session_listeners_paired_witness :
  (Idle (run [pointerDown 300; pointerMove Elsewhere 350]
           (snd (useEffect_resizer page)))
   \/ Dragging (run [pointerDown 300; pointerMove Elsewhere 350]
                  (snd (useEffect_resizer page))))
  /\ registered
       (document_listeners
          (run [pointerDown 300; pointerMove Elsewhere 350]
             (snd (useEffect_resizer page))))
       mousemove OnMouseMove
     = registered
         (document_listeners
            (run [pointerDown 300; pointerMove Elsewhere 350]
               (snd (useEffect_resizer page))))
         mouseup OnMouseUp.
Proof.
  refine (session_listeners_paired [pointerDown 300; pointerMove Elsewhere 350]
            page _ eq_refl eq_refl).
  discriminate.
Defined.

Lemma no_width_clamp_witness :
  leftStyle (step (pointerMove Elsewhere (-40)) dragging)
  = Some "width: -40px"
  /\ rightStyle (step (pointerMove Elsewhere (-40)) dragging)
     = Some "flex: 1 1 1230px".
Proof.
  refine (no_width_clamp dragging Elsewhere (-40) dragging_wellFormed
            eq_refl _ eq_refl eq_refl eq_refl eq_refl).
  split; discriminate.
Defined.

Lemma useEffect_resizer_only_failure_witness :
  useEffect_resizer pageWithoutDivider = (Throw TypeError, pageWithoutDivider)
  /\ fst (useEffect_resizer page) = Normal cleanup
  /\ uncaught
       (run [pointerDown 300; pointerMove Elsewhere 350; Detach;
             pointerMove Divider 280; pointerUp Elsewhere 280; pointerDown 1]
          (snd (useEffect_resizer page)))
     = [].
Proof.
  destruct (useEffect_resizer_only_failure pageWithoutDivider [])
    as [Habsent _].
  destruct (useEffect_resizer_only_failure page
              [pointerDown 300; pointerMove Elsewhere 350; Detach;
               pointerMove Divider 280; pointerUp Elsewhere 280;
               pointerDown 1])
    as (_ & Hpresent & Hquiet).
  split; [exact (Habsent eq_refl) |].
  split; [apply Hpresent; discriminate |].
  apply Hquiet; [split; discriminate | reflexivity | reflexivity].
Defined.

End ExtraScenarioFacts.
